(** * csv2xlsx: a shallow embedding of [src/csv2xlsx.py]

    The script reads a delimited text file with [pandas.read_csv], writes the
    resulting frame with [DataFrame.to_excel(..., index=False)] and reports the
    outcome on standard output.  The two pandas calls are external
    collaborators: they are an interface ([Pandas]) of this development, and
    the script is embedded over any implementation of it.  What the script
    itself decides -- the argument check, the order of the calls, the
    [index=False] keyword, the two [except] clauses and the printed lines -- is
    translated statement by statement.

    Modelling choices.  Standard output is the list of printed lines, and
    [print] itself does not fail.  The collaborators do not print on standard
    output, and what they raise is an instance of a class below [Exception]
    (an interrupt from the keyboard is not a failure of theirs).  The reader
    sees only what its path resolves to; the writer sees the clock and the
    whole file system, and may leave files behind even when it raises. *)

From Stdlib Require Import Strings.Byte DecimalString DecimalZ DecimalPos.
From stdpp Require Import gmap strings list fin_maps.

Local Open Scope string_scope.
Local Open Scope list_scope.

(** ** Python exceptions *)

(** The exception classes that occur below, all below [Exception] in Python's
    hierarchy ([SystemExit] is not: it is an outcome of its own, see
    [Outcome]). *)
Inductive ExnClass :=
  | Exception
  | OSError
  | FileNotFoundError
  | PermissionError
  | IsADirectoryError
  | LookupError
  | IndexError
  | ValueError
  | UnicodeError
  | UnicodeDecodeError
  | EmptyDataError
  | ParserError
  | IllegalCharacterError.

#[global] Instance ExnClass_eq_dec : EqDecision ExnClass.
Proof. solve_decision. Defined.

(** The direct base class ([class.__base__]); [Exception] is the root here. *)
Definition base (c : ExnClass) : option ExnClass :=
  match c with
  | Exception => None
  | OSError | LookupError | ValueError | IllegalCharacterError => Some Exception
  | FileNotFoundError | PermissionError | IsADirectoryError => Some OSError
  | IndexError => Some LookupError
  | UnicodeError | EmptyDataError | ParserError => Some ValueError
  | UnicodeDecodeError => Some UnicodeError
  end.

Fixpoint issubclass_fuel (fuel : nat) (c d : ExnClass) : bool :=
  if decide (c = d) then true
  else match fuel, base c with
       | S fuel', Some b => issubclass_fuel fuel' b d
       | _, _ => false
       end.

(** [issubclass(c, d)]; the hierarchy above is four levels deep. *)
Definition issubclass (c d : ExnClass) : bool := issubclass_fuel 4 c d.

(** An exception instance: its class and what [str(e)] returns. *)
Record PyExn := mkExn { exn_class : ExnClass; exn_str : string }.

Definition isinstance (e : PyExn) (c : ExnClass) : bool :=
  issubclass (exn_class e) c.

(** ** The table held in memory *)

Inductive Cell :=
  | CNull
  | CBool (b : bool)
  | CInt (z : Z)
  | CFloat (bits : Z)   (* a binary64 value, kept as its bit pattern *)
  | CStr (s : string).

(** A [pandas.DataFrame]: column labels, row labels (the index) and the
    values, row by row. *)
Record DataFrame := mkFrame {
  columns : list string;
  index : list Cell;
  values : list (list Cell)
}.

(** Every row has one value per column, and one row label per row. *)
Definition wf_frame (df : DataFrame) : bool :=
  forallb (λ r, length r =? length (columns df))%nat (values df)
  && (length (index df) =? length (values df))%nat.

Abbreviation Sheet := (list (list Cell)).

(** ** The world the script runs in *)

(** What a path resolves to. *)
Inductive node :=
  | Regular (data : list byte)      (* a readable regular file *)
  | NoReadPerm (data : list byte)   (* a regular file without read permission *)
  | BrokenLink.                     (* a symbolic link to a path that cannot be opened *)

Definition exists_file (o : option node) : bool :=
  match o with
  | Some (Regular _) | Some (NoReadPerm _) => true
  | Some BrokenLink | None => false
  end.

Definition readable_file (o : option node) : bool :=
  match o with
  | Some (Regular _) => true
  | _ => false
  end.

(** Observable events, oldest first: a line printed on standard output, and
    (as ghost events) the two calls into pandas. *)
Inductive Event :=
  | Stdout (line : string)
  | ReadCsv (path : string)
  | ToExcel (path : string) (index_kw : bool).

Record World := mkWorld {
  files : gmap string node;
  clock : N;
  trace : list Event
}.

Definition log (ev : Event) (w : World) : World :=
  {| files := files w; clock := clock w; trace := trace w ++ [ev] |}.

Definition stdout_of (evs : list Event) : list string :=
  omap (λ ev, match ev with Stdout s => Some s | _ => None end) evs.

(** ** A monad for the script: state, exceptions and [sys.exit] *)

Inductive Outcome (A : Type) :=
  | Return (a : A)
  | Raise (e : PyExn)
  | SysExit (status : Z).
Arguments Return {A} a.
Arguments Raise {A} e.
Arguments SysExit {A} status.

Definition Py (A : Type) : Type := World → World * Outcome A.

#[global] Instance Py_ret : MRet Py := λ A a w, (w, Return a).

#[global] Instance Py_bind : MBind Py := λ A B f m w,
  match m w with
  | (w', Return a) => f a w'
  | (w', Raise e) => (w', Raise e)
  | (w', SysExit n) => (w', SysExit n)
  end.

Definition raise {A} (e : PyExn) : Py A := λ w, (w, Raise e).

(** [sys.exit(n)] raises [SystemExit], which no [except Exception] catches. *)
Definition sys_exit {A} (n : Z) : Py A := λ w, (w, SysExit n).

Definition print (s : string) : Py unit := λ w, (log (Stdout s) w, Return ()).

(** [try: body except C1: h1 except C2 as e: h2 ...]: the first clause whose
    class the exception is an instance of handles it. *)
Definition try_except {A} (body : Py A)
    (handlers : list (ExnClass * (PyExn → Py A))) : Py A := λ w,
  match body w with
  | (w', Raise e) =>
      match find (λ h, isinstance e h.1) handlers with
      | Some h => h.2 e w'
      | None => (w', Raise e)
      end
  | r => r
  end.

(** [l[i]] on a Python list. *)
Definition getitem (l : list string) (i : nat) : Py string :=
  match l !! i with
  | Some x => mret x
  | None => raise (mkExn IndexError "list index out of range")
  end.

(** What the interpreter exits with when the module body ends in [o]: an
    uncaught exception prints a traceback and exits with 1. *)
Definition exit_status {A} (o : Outcome A) : Z :=
  match o with
  | Return _ => 0
  | SysExit n => n
  | Raise _ => 1
  end.

(** ** The pandas collaborators *)

(** [read_csv path file] is [pd.read_csv(path)] when [path] resolves to
    [file]; [to_excel now df path index fs] is [df.to_excel(path, index=index)]
    run at time [now] on the files [fs]: it returns the files it leaves behind
    and the exception it raised, if any. *)
Class Pandas := {
  read_csv : string → option node → PyExn + DataFrame;
  to_excel : N → DataFrame → string → bool → gmap string node →
             gmap string node * option PyExn
}.

Section Script.
Context {P : Pandas}.

Definition pd_read_csv (path : string) : Py DataFrame := λ w,
  match read_csv path (files w !! path) with
  | inl e => (log (ReadCsv path) w, Raise e)
  | inr df => (log (ReadCsv path) w, Return df)
  end.

Definition df_to_excel (df : DataFrame) (path : string) (index_kw : bool)
    : Py unit := λ w,
  let '(fs, r) := to_excel (clock w) df path index_kw (files w) in
  let w' := {| files := fs; clock := clock w;
               trace := trace w ++ [ToExcel path index_kw] |} in
  match r with
  | None => (w', Return ())
  | Some e => (w', Raise e)
  end.

(** The three lines [csv_to_xlsx] can print. *)
Definition msg_success (csv_file xlsx_file : string) : string :=
  "Successfully converted '" +:+ csv_file +:+ "' to '" +:+ xlsx_file +:+ "'".
Definition msg_not_found (csv_file : string) : string :=
  "Error: The file '" +:+ csv_file +:+ "' was not found.".
Definition msg_error (e : PyExn) : string :=
  "An error occurred: " +:+ exn_str e.

(** Lines 6-26. *)
Definition csv_to_xlsx (csv_file xlsx_file : string) : Py unit :=
  try_except
    (df ← pd_read_csv csv_file;
     df_to_excel df xlsx_file false;;
     print (msg_success csv_file xlsx_file))
    [ (FileNotFoundError, λ _, print (msg_not_found csv_file));
      (Exception, λ e, print (msg_error e)) ].

Definition msg_usage : string :=
  "Usage: python script_name.py <input.csv> <output.xlsx>".

(** Lines 28-45, the body under [if __name__ == "__main__":], with
    [argv = sys.argv]. *)
Definition main (argv : list string) : Py unit :=
  (if negb (length argv =? 3)%nat
   then print msg_usage;; sys_exit 1
   else mret ());;
  input_csv ← getitem argv 1;
  output_xlsx ← getitem argv 2;
  print ("input =" +:+ input_csv);;
  print ("output =" +:+ output_xlsx);;
  csv_to_xlsx input_csv output_xlsx.

(** Running the script: the world it leaves and the exit status. *)
Definition run (argv : list string) (w : World) : World * Z :=
  let '(w', o) := main argv w in (w', exit_status o).
End Script.

(** ** What the collaborators are assumed to do *)

(** Modelled from the spec: the sheet [DataFrame.to_excel] lays out (pandas is
    not part of the repository).  Section 4.3: the header row first, then one
    row per table row, in order; the comment on line 19 of the script: the
    [index] keyword decides whether the row labels are written as a leading
    column (under a blank header cell). *)
Definition frame_to_sheet (index_kw : bool) (df : DataFrame) : Sheet :=
  if index_kw
  then (CNull :: (CStr <$> columns df))
       :: zip_with (λ i r, i :: r) (index df) (values df)
  else (CStr <$> columns df) :: values df.

(** The table of section 3 as rows of cells: the header row (the column
    names), then the data rows. *)
Definition table (df : DataFrame) : Sheet :=
  (CStr <$> columns df) :: values df.

(** Modelled from the spec: the reader's contract of sections 4.2 and 6, "must
    distinguish file not found from other parse errors": a path that resolves
    to no file raises [FileNotFoundError], a path that resolves to a file
    never does. *)
Definition reader_contract (P : Pandas) : Prop :=
  ∀ path o,
    if exists_file o
    then ∀ e, read_csv path o = inl e → isinstance e FileNotFoundError = false
    else ∃ e, read_csv path o = inl e ∧ isinstance e FileNotFoundError = true.

(** The sheet with [f] applied to every cell. *)
Definition map_cells (f : Cell → Cell) (sheet : Sheet) : Sheet :=
  List.map (List.map f) sheet.

(** Modelled from the spec: the writer's contract of sections 4.3 and 6: when
    [to_excel] returns normally the destination is a regular file, and a
    spreadsheet reader [read_excel] reads it as the sheet that was laid out,
    each cell as the workbook format holds it ([stored]: a workbook keeps
    numbers as binary64, for instance). *)
Definition writer_contract (P : Pandas)
    (read_excel : list byte → option Sheet) (stored : Cell → Cell) : Prop :=
  ∀ now df path index_kw fs fs',
    to_excel now df path index_kw fs = (fs', None) →
    ∃ data, fs' !! path = Some (Regular data) ∧
            read_excel data = Some (map_cells stored (frame_to_sheet index_kw df)).

(** "A deterministic writer collaborator" (section 8): what a successful
    write leaves at the destination depends on the frame, the path and the
    keyword only, not on when it runs or on what was there before. *)
Definition writer_deterministic (P : Pandas) : Prop :=
  ∀ now now' df path index_kw fs1 fs2 fs1' fs2',
    to_excel now df path index_kw fs1 = (fs1', None) →
    to_excel now' df path index_kw fs2 = (fs2', None) →
    fs1' !! path = fs2' !! path.

(** ** Observations on a run *)

(** The exception the load or the write step raises when [csv_to_xlsx] is
    called in world [w], if any. *)
Definition pipeline_failure {P : Pandas} (csv_file xlsx_file : string)
    (w : World) : option PyExn :=
  match read_csv csv_file (files w !! csv_file) with
  | inl e => Some e
  | inr df => (to_excel (clock w) df xlsx_file false (files w)).2
  end.

(** The run ended with the success line. *)
Definition succeeded (csv_file xlsx_file : string) (w' : World) : Prop :=
  last (trace w') = Some (Stdout (msg_success csv_file xlsx_file)).

(** The three kinds of outcome line. *)
Inductive Report :=
  | Converted
  | SourceNotFound
  | Failed (description : string).

Definition render (csv_file xlsx_file : string) (r : Report) : string :=
  match r with
  | Converted => msg_success csv_file xlsx_file
  | SourceNotFound => msg_not_found csv_file
  | Failed d => "An error occurred: " +:+ d
  end.

(** [s.startswith(p)]. *)
Fixpoint startswith (p s : string) : bool :=
  match p, s with
  | EmptyString, _ => true
  | String a p', String b s' => Ascii.eqb a b && startswith p' s'
  | String _ _, EmptyString => false
  end.

(** Recognizes an outcome line by its fixed opening words. *)
Definition is_outcome_line (s : string) : bool :=
  startswith "Successfully converted '" s
  || startswith "Error: The file '" s
  || startswith "An error occurred: " s.

(** ** A small executable implementation of the collaborators

    [Mini] implements the [Pandas] interface far enough to run the script on
    concrete files: a comma/newline reader with per-field type inference and a
    writer with a textual workbook encoding.  It keeps the failure modes of
    the real calls that matter here: [open] fails with [FileNotFoundError] or
    [PermissionError], the parser with [EmptyDataError], [ParserError] or
    [UnicodeDecodeError], the workbook writer with [IllegalCharacterError]. *)
Module Mini.

Fixpoint split_on (sep : byte) (l : list byte) : list (list byte) :=
  match l with
  | [] => [[]]
  | b :: l' =>
      match split_on sep l' with
      | cur :: rest =>
          if Byte.eqb b sep then [] :: cur :: rest else (b :: cur) :: rest
      | [] => [[b]]
      end
  end.

Fixpoint join (sep : byte) (ls : list (list byte)) : list byte :=
  match ls with
  | [] => []
  | [l] => l
  | l :: ls' => l ++ sep :: join sep ls'
  end.

Definition decimal (z : Z) : list byte :=
  String.list_byte_of_string (NilZero.string_of_int (Z.to_int z)).

Definition of_decimal (l : list byte) : option Z :=
  Z.of_int <$> NilZero.int_of_string (String.string_of_list_byte l).

Definition na_values : list string := [""; "NA"; "NaN"; "N/A"; "null"].

(** Type inference, field by field. *)
Definition infer (field : list byte) : Cell :=
  let s := String.string_of_list_byte field in
  if bool_decide (s ∈ na_values) then CNull
  else if bool_decide (s = "True") then CBool true
  else if bool_decide (s = "False") then CBool false
  else match of_decimal field with
       | Some z => CInt z
       | None => CStr s
       end.

Definition pad (m : nat) (row : list Cell) : list Cell :=
  row ++ replicate (m - length row) CNull.

Definition nonempty (l : list byte) : bool :=
  match l with [] => false | _ => true end.

Definition parse_csv (data : list byte) : PyExn + DataFrame :=
  if existsb (λ b, 128 <=? Byte.to_N b)%N data
  then inl (mkExn UnicodeDecodeError
              "'utf-8' codec can't decode byte: invalid start byte")
  else
    match List.filter nonempty (split_on "010"%byte data) with
    | [] => inl (mkExn EmptyDataError "No columns to parse from file")
    | header :: rows =>
        let cols := String.string_of_list_byte <$> split_on ","%byte header in
        let m := length cols in
        let fields := split_on ","%byte <$> rows in
        if existsb (λ r, m <? length r)%nat fields
        then inl (mkExn ParserError
                    "Error tokenizing data. C error: too many fields in a line")
        else inr {| columns := cols;
                    index := (λ i, CInt (Z.of_nat i)) <$> seq 0 (length rows);
                    values := (λ r, pad m (infer <$> r)) <$> fields |}
    end.

Definition mini_read_csv (path : string) (o : option node) : PyExn + DataFrame :=
  match o with
  | None | Some BrokenLink =>
      inl (mkExn FileNotFoundError
             ("[Errno 2] No such file or directory: '" +:+ path +:+ "'"))
  | Some (NoReadPerm _) =>
      inl (mkExn PermissionError
             ("[Errno 13] Permission denied: '" +:+ path +:+ "'"))
  | Some (Regular data) => parse_csv data
  end.

(** Control characters a worksheet cannot hold (tab, line feed and carriage
    return are allowed). *)
Definition illegal_byte (b : byte) : bool :=
  let n := Byte.to_N b in
  (n <? 32)%N && negb ((n =? 9)%N || (n =? 10)%N || (n =? 13)%N).

Definition illegal_cell (c : Cell) : bool :=
  match c with
  | CStr s => existsb illegal_byte (String.list_byte_of_string s)
  | _ => false
  end.

Definition encode_cell (c : Cell) : list byte :=
  match c with
  | CNull => ["n"%byte]
  | CBool true => ["b"%byte; "1"%byte]
  | CBool false => ["b"%byte; "0"%byte]
  | CInt z => "i"%byte :: decimal z
  | CFloat bits => "f"%byte :: decimal bits
  | CStr s => "s"%byte :: String.list_byte_of_string s
  end.

(** Cells are separated by the unit separator, rows by the record separator. *)
Definition encode_sheet (sheet : Sheet) : list byte :=
  join x1e ((λ row, join x1f (encode_cell <$> row)) <$> sheet).

Definition decode_cell (f : list byte) : option Cell :=
  match f with
  | ["n"%byte] => Some CNull
  | ["b"%byte; "1"%byte] => Some (CBool true)
  | ["b"%byte; "0"%byte] => Some (CBool false)
  | "i"%byte :: ds => CInt <$> of_decimal ds
  | "f"%byte :: ds => CFloat <$> of_decimal ds
  | "s"%byte :: bs => Some (CStr (String.string_of_list_byte bs))
  | _ => None
  end.

Definition decode_sheet (data : list byte) : option Sheet :=
  mapM (λ row, match row with
               | [] => Some []
               | _ => mapM decode_cell (split_on x1f row)
               end)
       (split_on x1e data).

(** The writer, over a serializer [encode] that may look at the clock. *)
Definition to_excel_with (encode : N → Sheet → list byte) (now : N)
    (df : DataFrame) (path : string) (index_kw : bool)
    (fs : gmap string node) : gmap string node * option PyExn :=
  match fs !! path with
  | Some BrokenLink =>
      (fs, Some (mkExn FileNotFoundError
                   ("[Errno 2] No such file or directory: '" +:+ path +:+ "'")))
  | _ =>
      let sheet := frame_to_sheet index_kw df in
      if existsb (existsb illegal_cell) sheet
      then (<[path := Regular []]> fs,
            Some (mkExn IllegalCharacterError
                    "a cell value cannot be used in worksheets."))
      else (<[path := Regular (encode now sheet)]> fs, None)
  end.

Definition encode (now : N) (sheet : Sheet) : list byte := encode_sheet sheet.

(** A serializer that stamps the workbook with the time of writing. *)
Definition encode_stamped (now : N) (sheet : Sheet) : list byte :=
  decimal (Z.of_N now) ++ x1e :: encode_sheet sheet.

Definition pandas : Pandas :=
  {| read_csv := mini_read_csv; to_excel := to_excel_with encode |}.

Definition stamping_pandas : Pandas :=
  {| read_csv := mini_read_csv; to_excel := to_excel_with encode_stamped |}.

(** Reading a workbook back and writing a sheet as delimited text. *)
Definition read_excel (data : list byte) : option Sheet := decode_sheet data.



(** The example of section 8, and a few files around it. *)
Definition people_csv : list byte :=
  String.list_byte_of_string "id,name" ++ "010"%byte ::
  String.list_byte_of_string "1,Alice" ++ "010"%byte ::
  String.list_byte_of_string "2,Bob" ++ ["010"%byte].

Definition disk : gmap string node :=
  {[ "people.csv" := Regular people_csv;
     "locked.csv" := NoReadPerm people_csv;
     "garbage.csv" := Regular [xff; xfe; x00];
     "empty.csv" := Regular [];
     "dangling.xlsx" := BrokenLink ]}.

Definition world0 : World := {| files := disk; clock := 0; trace := [] |}.








(** The frame [people.csv] parses to. *)
Definition people : DataFrame :=
  {| columns := ["id"; "name"];
     index := [CInt 0; CInt 1];
     values := [[CInt 1; CStr "Alice"]; [CInt 2; CStr "Bob"]] |}.

(** The world a first conversion of [people.csv] to [out.xlsx] leaves, seven
    ticks later and with a fresh terminal. *)
Definition world1 : World :=
  {| files := files (main (P:=pandas) ["csv2xlsx.py"; "people.csv"; "out.xlsx"] world0).1;
     clock := 7;
     trace := [] |}.

End Mini.

(** What the two [except] clauses print for an exception [e] raised inside
    the [try] block. *)
Definition report_line (csv_file : string) (e : PyExn) : string :=
  if isinstance e FileNotFoundError then msg_not_found csv_file
  else msg_error e.

Definition report_kind (r : Report) : nat :=
  match r with Converted => 0 | SourceNotFound => 1 | Failed _ => 2 end.

(** Modelled from the spec: a writer that opens no file but the one it is
    given (section 5: exactly one file is open for writing), so that every
    other path resolves after the call to what it resolved to before. *)
Definition writer_local (P : Pandas) : Prop :=
  ∀ now df path index_kw fs p,
    p ≠ path → (to_excel now df path index_kw fs).1 !! p = fs !! p.

(** A byte that is neither of the two separators. *)
Definition plain (b : byte) : Prop := b ≠ x1f ∧ b ≠ x1e.

(** A sheet without a cell that the workbook writer of [Mini] rejects. *)
Definition legal_sheet (sheet : Sheet) : Prop :=
  existsb (existsb Mini.illegal_cell) sheet = false.

(** * Properties *)

(** ** The exception hierarchy *)

Lemma every_class_is_an_Exception c : issubclass c Exception = true.
Proof. by destruct c. Qed.

Lemma only_FileNotFoundError_is_one c :
  issubclass c FileNotFoundError = true ↔ c = FileNotFoundError.
Proof. destruct c; split; (done || discriminate). Qed.

(** ** The world after a logged event *)

Lemma files_log ev w : files (log ev w) = files w.
Proof. done. Qed.

Lemma trace_log ev w : trace (log ev w) = trace w ++ [ev].
Proof. done. Qed.

Lemma stdout_of_app evs evs' :
  stdout_of (evs ++ evs') = stdout_of evs ++ stdout_of evs'.
Proof. apply omap_app. Qed.

(** ** The printed lines are told apart by their first words *)

Lemma render_is_outcome_line a b r : is_outcome_line (render a b r) = true.
Proof. destruct r; reflexivity. Qed.

Lemma report_line_render a b e :
  ∃ r, report_line a e = render a b r ∧ r ≠ Converted.
Proof.
  unfold report_line. destruct (isinstance e FileNotFoundError).
  - by exists SourceNotFound.
  - by exists (Failed (exn_str e)).
Qed.

Lemma render_kind a b r r' : render a b r = render a b r' → report_kind r = report_kind r'.
Proof. destruct r, r'; simpl; (done || discriminate). Qed.

Lemma report_line_not_success a b e : report_line a e ≠ msg_success a b.
Proof.
  unfold report_line. destruct (isinstance e FileNotFoundError); discriminate.
Qed.

(** ** What [csv_to_xlsx] does, case by case *)

Section ScriptFacts.
Context {P : Pandas}.

Lemma find_handler (csv_file : string) (e : PyExn) (w : World) :
  match find (λ h : ExnClass * (PyExn → Py unit), isinstance e h.1)
          [ (FileNotFoundError, λ _, print (msg_not_found csv_file));
            (Exception, λ e, print (msg_error e)) ] with
  | Some h => h.2 e w
  | None => (w, Raise e)
  end = (log (Stdout (report_line csv_file e)) w, Return ()).
Proof.
  unfold report_line. simpl. destruct (isinstance e FileNotFoundError); [done |].
  unfold isinstance. by rewrite every_class_is_an_Exception.
Qed.

Lemma csv_to_xlsx_load_fails csv_file xlsx_file w e :
  read_csv csv_file (files w !! csv_file) = inl e →
  csv_to_xlsx csv_file xlsx_file w =
    (log (Stdout (report_line csv_file e)) (log (ReadCsv csv_file) w), Return ()).
Proof.
  intros Hr. unfold csv_to_xlsx, try_except, mbind, Py_bind, pd_read_csv.
  rewrite Hr. apply find_handler.
Qed.

Lemma csv_to_xlsx_write_fails csv_file xlsx_file w df fs' e :
  read_csv csv_file (files w !! csv_file) = inr df →
  to_excel (clock w) df xlsx_file false (files w) = (fs', Some e) →
  csv_to_xlsx csv_file xlsx_file w =
    (log (Stdout (report_line csv_file e))
       {| files := fs'; clock := clock w;
          trace := (trace w ++ [ReadCsv csv_file]) ++ [ToExcel xlsx_file false] |},
     Return ()).
Proof.
  intros Hr Hw. unfold csv_to_xlsx, try_except, mbind, Py_bind, pd_read_csv.
  rewrite Hr. unfold df_to_excel. simpl. rewrite Hw. apply find_handler.
Qed.

Lemma csv_to_xlsx_converts csv_file xlsx_file w df fs' :
  read_csv csv_file (files w !! csv_file) = inr df →
  to_excel (clock w) df xlsx_file false (files w) = (fs', None) →
  csv_to_xlsx csv_file xlsx_file w =
    (log (Stdout (msg_success csv_file xlsx_file))
       {| files := fs'; clock := clock w;
          trace := (trace w ++ [ReadCsv csv_file]) ++ [ToExcel xlsx_file false] |},
     Return ()).
Proof.
  intros Hr Hw. unfold csv_to_xlsx, try_except, mbind, Py_bind, pd_read_csv.
  rewrite Hr. unfold df_to_excel. simpl. by rewrite Hw.
Qed.

(** With three entries in [sys.argv] the script echoes the two paths and
    calls [csv_to_xlsx] on them. *)
Lemma main_two_arguments prog src dst w :
  main [prog; src; dst] w =
    csv_to_xlsx src dst
      (log (Stdout ("output =" +:+ dst)) (log (Stdout ("input =" +:+ src)) w)).
Proof.
  unfold main, mbind, Py_bind. simpl.
  by destruct (csv_to_xlsx src dst _) as [w' [[]| |]].
Qed.

(** With any other number of entries it prints the usage line and exits. *)
Lemma main_wrong_count argv w :
  length argv ≠ 3 → main argv w = (log (Stdout msg_usage) w, SysExit 1).
Proof.
  intros Hn. unfold main, mbind, Py_bind.
  destruct (Nat.eqb_spec (length argv) 3) as [|_]; done.
Qed.

Lemma argc_two (argv : list string) : length (tail argv) = 2 ↔ length argv = 3.
Proof. destruct argv; simpl; lia. Qed.

End ScriptFacts.

(** ** Argument count, exit status and printed lines *)

Section Invocation.
Context {P : Pandas}.

(** Every run with two arguments echoes the two paths, calls the reader,
    calls the writer only after a successful read, and ends with one outcome
    line; it returns normally. *)
Lemma main_two_arguments_trace prog src dst w :
  ∃ r calls,
    (main [prog; src; dst] w).2 = Return () ∧
    trace (main [prog; src; dst] w).1 =
      trace w ++ [Stdout ("input =" +:+ src); Stdout ("output =" +:+ dst)]
              ++ calls ++ [Stdout (render src dst r)] ∧
    stdout_of calls = [].
Proof.
  rewrite main_two_arguments.
  set (w2 := log _ (log _ w)).
  assert (Ht : trace w2 =
    trace w ++ [Stdout ("input =" +:+ src); Stdout ("output =" +:+ dst)]).
  { subst w2. rewrite !trace_log, <- app_assoc. done. }
  clearbody w2.
  destruct (read_csv src (files w2 !! src)) as [e|df] eqn:Hr.
  - destruct (report_line_render src dst e) as (r & Hl & _).
    exists r, [ReadCsv src].
    rewrite (csv_to_xlsx_load_fails _ _ _ _ Hr), Hl. simpl.
    rewrite Ht, <- !app_assoc. done.
  - destruct (to_excel (clock w2) df dst false (files w2)) as [fs' [e|]] eqn:Hw.
    + destruct (report_line_render src dst e) as (r & Hl & _).
      exists r, [ReadCsv src; ToExcel dst false].
      rewrite (csv_to_xlsx_write_fails _ _ _ _ _ _ Hr Hw), Hl. simpl.
      rewrite Ht, <- !app_assoc. done.
    + exists Converted, [ReadCsv src; ToExcel dst false].
      rewrite (csv_to_xlsx_converts _ _ _ _ _ Hr Hw). simpl.
      rewrite Ht, <- !app_assoc. done.
Qed.

(** C3. When the number of command-line arguments (not counting the program
    name) is not 2, the script prints the usage line, exits with status 1 and
    does nothing else: the files are untouched and pandas is not called.  When
    it is 2, the usage line is not among the lines it prints. *)
Theorem usage_exactly_on_wrong_argument_count (argv : list string) (w : World) :
  if bool_decide (length (tail argv) = 2)
  then ∃ evs, trace (run argv w).1 = trace w ++ evs ∧
              msg_usage ∉ stdout_of evs
  else run argv w = (log (Stdout msg_usage) w, 1%Z).
Proof.
  case_bool_decide as Hn.
  - apply argc_two in Hn.
    destruct argv as [|prog [|src [|dst [|]]]]; try discriminate.
    destruct (main_two_arguments_trace prog src dst w) as (r & calls & _ & Ht & Hc).
    eexists. split.
    + unfold run. destruct (main _ w) as [w' o]. exact Ht.
    + rewrite !stdout_of_app, Hc. simpl.
      rewrite !elem_of_cons, elem_of_nil.
      intros [H|[H|[H|[]]]]; try discriminate.
      destruct r; discriminate.
  - rewrite argc_two in Hn. unfold run.
    by rewrite (main_wrong_count _ _ Hn).
Qed.

(** C5. A run with two arguments exits with status 0 whatever happened in
    the load and the write; only a wrong argument count exits with a status
    other than 0 (namely 1). *)
Theorem exit_status_depends_on_argument_count_only (argv : list string) (w : World) :
  (run argv w).2 = if bool_decide (length (tail argv) = 2) then 0%Z else 1%Z.
Proof.
  case_bool_decide as Hn.
  - apply argc_two in Hn.
    destruct argv as [|prog [|src [|dst [|]]]]; try discriminate.
    destruct (main_two_arguments_trace prog src dst w) as (r & calls & Ho & _).
    unfold run. destruct (main _ w) as [w' o]. simpl in *. by subst o.
  - rewrite argc_two in Hn. unfold run.
    by rewrite (main_wrong_count _ _ Hn).
Qed.

(** C7. No exception raised by the load or the write leaves [csv_to_xlsx]:
    the call returns normally and, when one of them raised [e], the last thing
    it did was to print the line of the [except] clause for [e].  The module
    body as a whole never ends in an uncaught exception: it returns normally
    with two arguments and ends in [sys.exit] otherwise. *)
Theorem failures_never_escape (argv : list string) (src dst : string) (w : World) :
  (csv_to_xlsx src dst w).2 = Return () ∧
  match pipeline_failure src dst w with
  | Some e => last (trace (csv_to_xlsx src dst w).1)
              = Some (Stdout (report_line src e))
  | None => last (trace (csv_to_xlsx src dst w).1)
            = Some (Stdout (msg_success src dst))
  end ∧
  match (main argv w).2 with
  | Return _ => length (tail argv) = 2
  | SysExit status => length (tail argv) ≠ 2 ∧ status = 1%Z
  | Raise _ => False
  end.
Proof.
  split_and!.
  - destruct (read_csv src (files w !! src)) as [e|df] eqn:Hr.
    { by rewrite (csv_to_xlsx_load_fails _ _ _ _ Hr). }
    destruct (to_excel (clock w) df dst false (files w)) as [fs' [e|]] eqn:Hw.
    + by rewrite (csv_to_xlsx_write_fails _ _ _ _ _ _ Hr Hw).
    + by rewrite (csv_to_xlsx_converts _ _ _ _ _ Hr Hw).
  - unfold pipeline_failure.
    destruct (read_csv src (files w !! src)) as [e|df] eqn:Hr.
    { rewrite (csv_to_xlsx_load_fails _ _ _ _ Hr). apply last_snoc. }
    destruct (to_excel (clock w) df dst false (files w)) as [fs' [e|]] eqn:Hw.
    + rewrite (csv_to_xlsx_write_fails _ _ _ _ _ _ Hr Hw). apply last_snoc.
    + rewrite (csv_to_xlsx_converts _ _ _ _ _ Hr Hw). apply last_snoc.
  - destruct (decide (length argv = 3)) as [Hn|Hn].
    + destruct argv as [|prog [|a [|b [|]]]]; try discriminate.
      destruct (main_two_arguments_trace prog a b w) as (r & calls & Ho & _).
      by rewrite Ho.
    + rewrite (main_wrong_count _ _ Hn). simpl. by rewrite argc_two.
Qed.

(** C10. A run with two arguments prints exactly three lines: the source
    path after [input =], the destination path after [output =], both as
    given, and then one outcome line, which is of exactly one of the three
    kinds (success naming both paths, source not found, generic error). *)
Theorem two_arguments_print_echo_then_one_outcome (prog src dst : string) (w : World) :
  ∃ r evs,
    trace (main [prog; src; dst] w).1 = trace w ++ evs ∧
    stdout_of evs = ["input =" +:+ src; "output =" +:+ dst; render src dst r] ∧
    length (List.filter is_outcome_line (stdout_of evs)) = 1 ∧
    ∀ r', render src dst r' = render src dst r → report_kind r' = report_kind r.
Proof.
  destruct (main_two_arguments_trace prog src dst w) as (r & calls & _ & Ht & Hc).
  exists r. eexists. split; [exact Ht |].
  rewrite !stdout_of_app, Hc. simpl. split_and!.
  - done.
  - by rewrite render_is_outcome_line.
  - intros r'. apply render_kind.
Qed.

End Invocation.

(** ** The three ways a run with two arguments can go *)

Section Runs.
Context {P : Pandas}.

Lemma main_load_fails prog src dst w e :
  read_csv src (files w !! src) = inl e →
  main [prog; src; dst] w =
    ({| files := files w; clock := clock w;
        trace := trace w ++ [Stdout ("input =" +:+ src);
                             Stdout ("output =" +:+ dst);
                             ReadCsv src;
                             Stdout (report_line src e)] |}, Return ()).
Proof.
  intros Hr. rewrite main_two_arguments.
  rewrite (csv_to_xlsx_load_fails _ _ _ e) by exact Hr.
  unfold log. simpl. by rewrite <- !app_assoc.
Qed.

Lemma main_write_fails prog src dst w df fs' e :
  read_csv src (files w !! src) = inr df →
  to_excel (clock w) df dst false (files w) = (fs', Some e) →
  main [prog; src; dst] w =
    ({| files := fs'; clock := clock w;
        trace := trace w ++ [Stdout ("input =" +:+ src);
                             Stdout ("output =" +:+ dst);
                             ReadCsv src; ToExcel dst false;
                             Stdout (report_line src e)] |}, Return ()).
Proof.
  intros Hr Hw. rewrite main_two_arguments.
  rewrite (csv_to_xlsx_write_fails _ _ _ df fs' e) by done.
  unfold log. simpl. by rewrite <- !app_assoc.
Qed.

Lemma main_converts prog src dst w df fs' :
  read_csv src (files w !! src) = inr df →
  to_excel (clock w) df dst false (files w) = (fs', None) →
  main [prog; src; dst] w =
    ({| files := fs'; clock := clock w;
        trace := trace w ++ [Stdout ("input =" +:+ src);
                             Stdout ("output =" +:+ dst);
                             ReadCsv src; ToExcel dst false;
                             Stdout (msg_success src dst)] |}, Return ()).
Proof.
  intros Hr Hw. rewrite main_two_arguments.
  rewrite (csv_to_xlsx_converts _ _ _ df fs') by done.
  unfold log. simpl. by rewrite <- !app_assoc.
Qed.

(** A run that ends with the success line loaded a frame and wrote it. *)
Lemma succeeded_inv prog src dst w :
  succeeded src dst (main [prog; src; dst] w).1 →
  ∃ df fs',
    read_csv src (files w !! src) = inr df ∧
    to_excel (clock w) df dst false (files w) = (fs', None) ∧
    files (main [prog; src; dst] w).1 = fs'.
Proof.
  unfold succeeded. intros Hs.
  destruct (read_csv src (files w !! src)) as [e|df] eqn:Hr.
  { rewrite (main_load_fails _ _ _ _ _ Hr) in Hs. simpl in Hs.
    rewrite last_app in Hs. simpl in Hs. injection Hs as Hs.
    by apply report_line_not_success in Hs. }
  destruct (to_excel (clock w) df dst false (files w)) as [fs' [e|]] eqn:Hw.
  - rewrite (main_write_fails _ _ _ _ _ _ _ Hr Hw) in Hs. simpl in Hs.
    rewrite last_app in Hs. simpl in Hs. injection Hs as Hs.
    by apply report_line_not_success in Hs.
  - exists df, fs'. by rewrite (main_converts _ _ _ _ _ _ Hr Hw).
Qed.

End Runs.

(** ** The sheet that is written *)

(** With [index=False] the sheet is the table itself. *)
Lemma frame_to_sheet_without_index df : frame_to_sheet false df = table df.
Proof. done. Qed.

(** With [index=True] every row would start with one more cell. *)
Lemma frame_to_sheet_with_index df :
  wf_frame df = true →
  Forall2 (λ row row', length row = S (length row'))
    (frame_to_sheet true df) (table df).
Proof.
  unfold wf_frame, frame_to_sheet, table. intros [_ Hl%Nat.eqb_eq]%andb_prop.
  constructor; [done |].
  revert Hl. generalize (index df). induction (values df) as [|r rs IH];
    intros [|i idx] Hl; simplify_eq/=; constructor; auto.
Qed.

Lemma table_shape df :
  wf_frame df = true →
  length (table df) = S (length (values df)) ∧
  Forall (λ row, length row = length (columns df)) (table df).
Proof.
  unfold wf_frame, table. intros [Hr _]%andb_prop. split; [done |].
  constructor; [by rewrite length_fmap |].
  apply Forall_forall. intros row Hin%list_elem_of_In.
  rewrite forallb_forall in Hr. by apply Nat.eqb_eq, Hr.
Qed.

(** ** The executable collaborators meet the contracts *)

Lemma mini_parse_never_not_found data e :
  Mini.parse_csv data = inl e → isinstance e FileNotFoundError = false.
Proof.
  unfold Mini.parse_csv.
  repeat (case_match; try discriminate); by intros [= <-].
Qed.

Lemma mini_reader_contract : reader_contract Mini.pandas.
Proof.
  intros path [[data|data|]|]; simpl.
  - intros e. apply mini_parse_never_not_found.
  - by intros e [= <-].
  - by eexists.
  - by eexists.
Qed.

(** ** The workbook encoding of [Mini] can be read back *)

Section SplitJoin.
Variable sep : byte.

Lemma split_on_plain (l : list byte) :
  Forall (λ b, b ≠ sep) l → Mini.split_on sep l = [l].
Proof.
  induction 1 as [|b l Hb _ IH]; [done |]. simpl. rewrite IH.
  destruct (Byte.eqb b sep) eqn:E; [|done].
  by apply Byte.byte_dec_bl in E.
Qed.

Lemma split_on_nonnil (l : list byte) : Mini.split_on sep l ≠ [].
Proof.
  destruct l as [|b l]; simpl; [done |].
  destruct (Mini.split_on sep l); [done |]. by destruct (Byte.eqb b sep).
Qed.

Lemma split_on_app (l rest : list byte) :
  Forall (λ b, b ≠ sep) l →
  Mini.split_on sep (l ++ sep :: rest) = l :: Mini.split_on sep rest.
Proof.
  induction 1 as [|b l Hb _ IH]; simpl.
  - destruct (Mini.split_on sep rest) eqn:E; [by apply split_on_nonnil in E |].
    by rewrite (Byte.byte_dec_lb (eq_refl sep)).
  - rewrite IH. destruct (Byte.eqb b sep) eqn:E; [|done].
    by apply Byte.byte_dec_bl in E.
Qed.

Lemma split_on_join (ls : list (list byte)) :
  ls ≠ [] →
  Forall (Forall (λ b, b ≠ sep)) ls →
  Mini.split_on sep (Mini.join sep ls) = ls.
Proof.
  intros Hne Hall. induction Hall as [|l ls Hl Hls IH]; [done |].
  destruct ls as [|l' ls'].
  - simpl. by apply split_on_plain.
  - change (Mini.join sep (l :: l' :: ls'))
      with (l ++ sep :: Mini.join sep (l' :: ls')).
    rewrite split_on_app by done. by rewrite IH.
Qed.

Lemma join_plain (sep' : byte) (ls : list (list byte)) :
  sep' ≠ sep →
  Forall (Forall (λ b, b ≠ sep')) ls →
  Forall (λ b, b ≠ sep') (Mini.join sep ls).
Proof.
  intros Hs. induction 1 as [|l ls Hl Hls IH]; [constructor |].
  destruct ls as [|l' ls']; [done |].
  change (Mini.join sep (l :: l' :: ls'))
    with (l ++ sep :: Mini.join sep (l' :: ls')).
  apply Forall_app. split; [done |]. constructor; [done | exact IH].
Qed.
End SplitJoin.

Lemma digits_plain (d : Decimal.uint) :
  Forall plain (String.list_byte_of_string (NilEmpty.string_of_uint d)).
Proof.
  induction d; simpl; repeat constructor; (discriminate || assumption).
Qed.

Lemma decimal_plain (z : Z) : Forall plain (Mini.decimal z).
Proof.
  unfold Mini.decimal.
  assert (Hu : ∀ d, Forall plain
            (String.list_byte_of_string (NilZero.string_of_uint d))).
  { intros d. unfold NilZero.string_of_uint.
    destruct d; try apply digits_plain.
    repeat constructor; discriminate. }
  destruct (Z.to_int z) as [d|d]; simpl; [apply Hu |].
  constructor; [split; discriminate | apply Hu].
Qed.

Lemma of_decimal_decimal (z : Z) : Mini.of_decimal (Mini.decimal z) = Some z.
Proof.
  unfold Mini.of_decimal, Mini.decimal.
  rewrite String.string_of_list_byte_of_string.
  rewrite NilZero.isi.
  - simpl. by rewrite DecimalZ.of_to.
  - destruct z; simpl; try discriminate.
    intros [= H]. by apply DecimalPos.Unsigned.to_uint_nonnil in H.
  - destruct z; simpl; try discriminate.
    intros [= H]. by apply DecimalPos.Unsigned.to_uint_nonnil in H.
Qed.

Lemma legal_byte_plain (b : byte) : Mini.illegal_byte b = false → plain b.
Proof. by intros H; split; intros ->. Qed.

Lemma encode_cell_plain (c : Cell) :
  Mini.illegal_cell c = false → Forall plain (Mini.encode_cell c).
Proof.
  destruct c as [|[]|z|z|s]; simpl; intros Hc;
    repeat (constructor; [split; discriminate |]);
    try apply decimal_plain; try constructor.
  apply Forall_forall. intros b Hb. apply legal_byte_plain.
  destruct (Mini.illegal_byte b) eqn:E; [|done].
  rewrite <- Hc. symmetry. apply existsb_exists. exists b.
  by rewrite <- list_elem_of_In.
Qed.

Lemma decode_encode_cell (c : Cell) :
  Mini.decode_cell (Mini.encode_cell c) = Some c.
Proof.
  destruct c as [|[]|z|z|s]; simpl; try done.
  - by rewrite of_decimal_decimal.
  - by rewrite of_decimal_decimal.
  - by rewrite String.string_of_list_byte_of_string.
Qed.

Lemma legal_sheet_cells (sheet : Sheet) :
  legal_sheet sheet →
  Forall (Forall (λ c, Mini.illegal_cell c = false)) sheet.
Proof.
  unfold legal_sheet. intros H.
  apply Forall_forall. intros row Hrow. apply Forall_forall. intros c Hc.
  destruct (Mini.illegal_cell c) eqn:E; [|done].
  rewrite <- H. symmetry. apply existsb_exists. exists row.
  split; [by rewrite <- list_elem_of_In |].
  apply existsb_exists. exists c. by rewrite <- list_elem_of_In.
Qed.

Lemma decode_encode_row (row : list Cell) :
  Forall (λ c, Mini.illegal_cell c = false) row →
  match Mini.join x1f (Mini.encode_cell <$> row) with
  | [] => Some []
  | _ => mapM Mini.decode_cell
           (Mini.split_on x1f (Mini.join x1f (Mini.encode_cell <$> row)))
  end = Some row.
Proof.
  intros Hrow. destruct row as [|c row]; [done |].
  assert (Hs : Mini.split_on x1f (Mini.join x1f (Mini.encode_cell <$> c :: row))
               = Mini.encode_cell <$> c :: row).
  { apply split_on_join; [done |].
    apply Forall_fmap. eapply Forall_impl; [exact Hrow |].
    intros c' Hc'. eapply Forall_impl; [by apply encode_cell_plain |].
    by intros b [Hb _]. }
  rewrite Hs.
  destruct (Mini.join x1f (Mini.encode_cell <$> c :: row)) eqn:Hj.
  - exfalso. destruct c as [|[]| | |]; destruct row; discriminate.
  - apply mapM_fmap_Some, decode_encode_cell.
Qed.

Lemma decode_encode_sheet (sheet : Sheet) :
  sheet ≠ [] → legal_sheet sheet →
  Mini.decode_sheet (Mini.encode_sheet sheet) = Some sheet.
Proof.
  intros Hne Hl%legal_sheet_cells. unfold Mini.decode_sheet, Mini.encode_sheet.
  rewrite split_on_join.
  - apply mapM_fmap_Forall_Some.
    eapply Forall_impl; [exact Hl |]. intros row Hrow.
    by apply decode_encode_row.
  - by destruct sheet.
  - apply Forall_fmap. eapply Forall_impl; [exact Hl |]. intros row Hrow.
    simpl. apply join_plain; [discriminate |].
    apply Forall_fmap. eapply Forall_impl; [exact Hrow |].
    intros c Hc. eapply Forall_impl; [by apply encode_cell_plain |].
    by intros b [_ Hb].
Qed.

Lemma map_cells_fixed (f : Cell → Cell) (sheet : Sheet) :
  Forall (Forall (λ c, f c = c)) sheet → map_cells f sheet = sheet.
Proof.
  unfold map_cells. induction 1 as [|row sheet Hrow _ IH]; simpl; [done |].
  f_equal; [|done]. induction Hrow; simpl; by f_equal.
Qed.

Lemma legal_sheet_map_cells (f : Cell → Cell) (sheet : Sheet) :
  (∀ c, Mini.illegal_cell (f c) = Mini.illegal_cell c) →
  legal_sheet sheet → legal_sheet (map_cells f sheet).
Proof.
  unfold legal_sheet, map_cells. intros Hf.
  induction sheet as [|row sheet IH]; simpl; [done |].
  intros [Hrow Hrest]%orb_false_iff. rewrite IH by done.
  rewrite orb_false_r. clear IH Hrest.
  induction row as [|c row IH]; simpl in *; [done |].
  apply orb_false_iff in Hrow as [Hc Hrow]. by rewrite Hf, Hc, IH.
Qed.

Lemma frame_to_sheet_nonempty index_kw df : frame_to_sheet index_kw df ≠ [].
Proof. by destruct index_kw. Qed.

(** The writer of [Mini], over a serializer that encodes the sheet as the
    workbook holds it, meets the writer's contract. *)
Lemma to_excel_with_contract (enc : N → Sheet → list byte) (stored : Cell → Cell) :
  (∀ now sheet, enc now sheet = Mini.encode_sheet (map_cells stored sheet)) →
  (∀ c, Mini.illegal_cell (stored c) = Mini.illegal_cell c) →
  writer_contract
    {| read_csv := Mini.mini_read_csv; to_excel := Mini.to_excel_with enc |}
    Mini.read_excel stored.
Proof.
  intros Henc Hst now df path index_kw fs fs'. simpl.
  unfold Mini.to_excel_with.
  destruct (existsb (existsb Mini.illegal_cell) (frame_to_sheet index_kw df))
    eqn:Hl.
  { repeat case_match; discriminate. }
  intros Hw. exists (enc now (frame_to_sheet index_kw df)). split.
  - repeat case_match; simplify_eq; apply lookup_insert_eq.
  - rewrite Henc. apply decode_encode_sheet.
    + unfold map_cells. by destruct index_kw.
    + by apply legal_sheet_map_cells.
Qed.

Lemma mini_writer_contract : writer_contract Mini.pandas Mini.read_excel id.
Proof.
  apply to_excel_with_contract; [|done].
  intros now sheet. unfold Mini.encode. f_equal. symmetry.
  apply map_cells_fixed, Forall_forall. intros row _.
  by apply Forall_forall.
Qed.


Lemma mini_writer_deterministic : writer_deterministic Mini.pandas.
Proof.
  intros now now' df path index_kw fs1 fs2 fs1' fs2'. simpl.
  unfold Mini.to_excel_with, Mini.encode.
  repeat (case_match; try discriminate); intros [= <-] [= <-];
    by rewrite !lookup_insert_eq.
Qed.

(** The writer over the stamping serializer is not deterministic. *)
Lemma mini_stamping_writer_not_deterministic :
  ¬ writer_deterministic Mini.stamping_pandas.
Proof.
  intros H.
  pose proof (H 0%N 1%N Mini.people "out.xlsx" false ∅ ∅
    (to_excel (Pandas:=Mini.stamping_pandas) 0 Mini.people "out.xlsx" false ∅).1
    (to_excel (Pandas:=Mini.stamping_pandas) 1 Mini.people "out.xlsx" false ∅).1)
    as H'.
  assert (E := H' ltac:(vm_compute; reflexivity) ltac:(vm_compute; reflexivity)).
  vm_compute in E. discriminate E.
Qed.

(** ** What is written on success *)

Section Conversion.
Context {P : Pandas}.
Variable read_excel : list byte → option Sheet.
Variable stored : Cell → Cell.
Hypothesis writer_ok : writer_contract P read_excel stored.

(** A successful run leaves at the destination a regular file that reads
    back as the table of the frame it loaded, as the workbook holds it. *)
Lemma main_writes_table prog src dst w df :
  read_csv src (files w !! src) = inr df →
  succeeded src dst (main [prog; src; dst] w).1 →
  ∃ data,
    files (main [prog; src; dst] w).1 !! dst = Some (Regular data) ∧
    read_excel data = Some (map_cells stored (table df)).
Proof.
  intros Hr (df' & fs' & Hr' & Hw & ->)%succeeded_inv.
  rewrite Hr in Hr'. injection Hr' as <-.
  exact (writer_ok _ _ _ _ _ _ Hw).
Qed.

(** C1. When the input loads as a table of [N] data rows and [M] columns and
    the conversion succeeds, the destination is a regular file, and the sheet
    a spreadsheet reader reads from it has exactly [N + 1] rows -- the header
    row first and the data rows after it in their order, cell for cell as the
    workbook holds them -- and every row has exactly [M] cells in column
    order: no leading column of row labels is added. *)
Theorem converted_sheet_has_the_shape_of_the_table
    (prog src dst : string) (w : World) (df : DataFrame) (N M : nat) :
  read_csv src (files w !! src) = inr df →
  wf_frame df = true →
  length (values df) = N →
  length (columns df) = M →
  succeeded src dst (main [prog; src; dst] w).1 →
  ∃ (data : list byte) (sheet : Sheet),
    files (main [prog; src; dst] w).1 !! dst = Some (Regular data) ∧
    read_excel data = Some sheet ∧
    sheet = map_cells stored ((CStr <$> columns df) :: values df) ∧
    length sheet = N + 1 ∧
    Forall (λ row, length row = M) sheet.
Proof.
  intros Hr Hwf <- <- Hs.
  destruct (main_writes_table _ _ _ _ _ Hr Hs) as (data & Hd & Hx).
  destruct (table_shape df Hwf) as [Hn Hm].
  exists data, (map_cells stored (table df)). split_and!; [done.. | |].
  - unfold map_cells. rewrite length_map. lia.
  - unfold map_cells. apply Forall_map. eapply Forall_impl; [exact Hm |].
    intros row Hrow. simpl. by rewrite length_map.
Qed.

(** C9. Converting the same input to the same destination a second time, at
    any later time, leaves a destination file equal byte for byte to the one
    the first conversion left: both conversions leave a regular file there,
    with the same bytes -- when both succeed and the writer is
    deterministic. *)
Theorem converting_twice_writes_the_same_bytes
    (prog src dst : string) (w0 w1 : World) :
  writer_deterministic P →
  succeeded src dst (main [prog; src; dst] w0).1 →
  files w1 = files (main [prog; src; dst] w0).1 →
  files w1 !! src = files w0 !! src →
  succeeded src dst (main [prog; src; dst] w1).1 →
  ∃ data : list byte,
    files (main [prog; src; dst] w0).1 !! dst = Some (Regular data) ∧
    files (main [prog; src; dst] w1).1 !! dst = Some (Regular data).
Proof.
  intros Hdet Hs0 Hfs Hsame Hs1.
  destruct (succeeded_inv _ _ _ _ Hs0) as (df & fs0 & Hr0 & Hw0 & Hf0).
  destruct (succeeded_inv _ _ _ _ Hs1) as (df1 & fs1 & Hr1 & Hw1 & Hf1).
  rewrite Hsame, Hr0 in Hr1. injection Hr1 as <-.
  destruct (writer_ok _ _ _ _ _ _ Hw0) as (data & Hd & _).
  exists data. rewrite Hf0, Hf1. split; [done |].
  by rewrite <- (Hdet _ _ _ _ _ _ _ _ _ Hw0 Hw1).
Qed.


End Conversion.

(** ** Failures of the load and of the write *)

Section Failures.
Context {P : Pandas}.

(** C4 (as amended). When the source path resolves to no file, a run with two
    arguments prints, after the two echo lines, the line that names the source
    path as not found; the writer is not called and no file is created or
    changed. *)
Theorem missing_source_is_reported_and_nothing_is_written
    (prog src dst : string) (w : World) :
  reader_contract P →
  exists_file (files w !! src) = false →
  trace (main [prog; src; dst] w).1 =
    trace w ++ [Stdout ("input =" +:+ src); Stdout ("output =" +:+ dst);
                ReadCsv src;
                Stdout ("Error: The file '" +:+ src +:+ "' was not found.")] ∧
  files (main [prog; src; dst] w).1 = files w.
Proof.
  intros Hc Hf. specialize (Hc src (files w !! src)). rewrite Hf in Hc.
  destruct Hc as (e & Hr & He).
  rewrite (main_load_fails _ _ _ _ _ Hr). unfold report_line. by rewrite He.
Qed.

(** C6. When the source path resolves to a file that the reader rejects with
    [e], a run with two arguments prints, after the two echo lines, the generic
    line carrying [str(e)]; the writer is not called, so no file -- in
    particular no destination file -- is created or changed. *)
Theorem invalid_source_is_reported_and_nothing_is_written
    (prog src dst : string) (w : World) (e : PyExn) :
  reader_contract P →
  exists_file (files w !! src) = true →
  read_csv src (files w !! src) = inl e →
  trace (main [prog; src; dst] w).1 =
    trace w ++ [Stdout ("input =" +:+ src); Stdout ("output =" +:+ dst);
                ReadCsv src;
                Stdout ("An error occurred: " +:+ exn_str e)] ∧
  files (main [prog; src; dst] w).1 = files w.
Proof.
  intros Hc Hf Hr. specialize (Hc src (files w !! src)). rewrite Hf in Hc.
  rewrite (main_load_fails _ _ _ _ _ Hr). unfold report_line.
  by rewrite (Hc e Hr).
Qed.

(** C2 (what the code does). When the load succeeds and the write raises a
    [FileNotFoundError], the [except FileNotFoundError] clause handles it: the
    outcome line says that the source file was not found. *)
Theorem write_not_found_is_reported_as_missing_source
    (prog src dst : string) (w : World) (df : DataFrame)
    (fs' : gmap string node) (e : PyExn) :
  read_csv src (files w !! src) = inr df →
  to_excel (clock w) df dst false (files w) = (fs', Some e) →
  isinstance e FileNotFoundError = true →
  trace (main [prog; src; dst] w).1 =
    trace w ++ [Stdout ("input =" +:+ src); Stdout ("output =" +:+ dst);
                ReadCsv src; ToExcel dst false;
                Stdout ("Error: The file '" +:+ src +:+ "' was not found.")].
Proof.
  intros Hr Hw He. rewrite (main_write_fails _ _ _ _ _ _ _ Hr Hw).
  unfold report_line. by rewrite He.
Qed.

(** Every other failure of the write is reported by the generic line carrying
    its description. *)
Lemma write_failure_is_reported_generically prog src dst w df fs' e :
  read_csv src (files w !! src) = inr df →
  to_excel (clock w) df dst false (files w) = (fs', Some e) →
  isinstance e FileNotFoundError = false →
  last (trace (main [prog; src; dst] w).1)
    = Some (Stdout ("An error occurred: " +:+ exn_str e)).
Proof.
  intros Hr Hw He. rewrite (main_write_fails _ _ _ _ _ _ _ Hr Hw).
  simpl. rewrite last_app. unfold report_line. by rewrite He.
Qed.

End Failures.

(** ** The claims on concrete files *)

(** The example of section 8: three rows, two columns. *)
Lemma people_csv_converts_to_three_rows_of_two_cells :
  ∃ (data : list byte) (sheet : Sheet),
    files (main (P:=Mini.pandas) ["csv2xlsx.py"; "people.csv"; "out.xlsx"]
             Mini.world0).1 !! "out.xlsx" = Some (Regular data) ∧
    Mini.read_excel data = Some sheet ∧
    sheet = map_cells id ((CStr <$> columns Mini.people) :: values Mini.people) ∧
    length sheet = 2 + 1 ∧
    Forall (λ row, length row = 2) sheet.
Proof.
  apply (converted_sheet_has_the_shape_of_the_table (P:=Mini.pandas)
           Mini.read_excel id mini_writer_contract
           "csv2xlsx.py" "people.csv" "out.xlsx" Mini.world0 Mini.people 2 2).
  - vm_compute. reflexivity.
  - reflexivity.
  - reflexivity.
  - reflexivity.
  - unfold succeeded. vm_compute. reflexivity.
Defined.

Lemma people_csv_converted_twice_gives_the_same_bytes :
  ∃ data : list byte,
    files (main (P:=Mini.pandas) ["csv2xlsx.py"; "people.csv"; "out.xlsx"]
             Mini.world0).1 !! "out.xlsx" = Some (Regular data) ∧
    files (main (P:=Mini.pandas) ["csv2xlsx.py"; "people.csv"; "out.xlsx"]
             Mini.world1).1 !! "out.xlsx" = Some (Regular data).
Proof.
  apply (converting_twice_writes_the_same_bytes (P:=Mini.pandas)
           Mini.read_excel id mini_writer_contract
           "csv2xlsx.py" "people.csv" "out.xlsx" Mini.world0 Mini.world1).
  - apply mini_writer_deterministic.
  - unfold succeeded. vm_compute. reflexivity.
  - reflexivity.
  - vm_compute. reflexivity.
  - unfold succeeded. vm_compute. reflexivity.
Defined.



Lemma absent_csv_is_reported_missing :
  trace (main (P:=Mini.pandas) ["csv2xlsx.py"; "absent.csv"; "out.xlsx"]
           Mini.world0).1 =
    trace Mini.world0
      ++ [Stdout ("input =" +:+ "absent.csv"); Stdout ("output =" +:+ "out.xlsx");
          ReadCsv "absent.csv";
          Stdout ("Error: The file '" +:+ "absent.csv" +:+ "' was not found.")] ∧
  files (main (P:=Mini.pandas) ["csv2xlsx.py"; "absent.csv"; "out.xlsx"]
           Mini.world0).1 = files Mini.world0.
Proof.
  apply (missing_source_is_reported_and_nothing_is_written (P:=Mini.pandas)
           "csv2xlsx.py" "absent.csv" "out.xlsx" Mini.world0).
  - apply mini_reader_contract.
  - vm_compute. reflexivity.
Defined.

(** C4 as stated fails: a source file that exists but cannot be read is
    reported by the generic line (here [PermissionError]'s description), not
    by the line for a missing source. *)
Lemma unreadable_source_is_not_reported_missing :
  ¬ (∀ P : Pandas, reader_contract P →
     ∀ (prog src dst : string) (w : World),
       readable_file (files w !! src) = false →
       last (stdout_of (trace (main [prog; src; dst] w).1))
         = Some ("Error: The file '" +:+ src +:+ "' was not found.") ∧
       files (main [prog; src; dst] w).1 !! dst = files w !! dst).
Proof.
  intros H.
  destruct (H Mini.pandas mini_reader_contract
              "csv2xlsx.py" "locked.csv" "out.xlsx" Mini.world0) as [Hl _].
  - vm_compute. reflexivity.
  - vm_compute in Hl. discriminate Hl.
Qed.

Lemma garbage_csv_is_reported_generically :
  trace (main (P:=Mini.pandas) ["csv2xlsx.py"; "garbage.csv"; "out.xlsx"]
           Mini.world0).1 =
    trace Mini.world0
      ++ [Stdout ("input =" +:+ "garbage.csv"); Stdout ("output =" +:+ "out.xlsx");
          ReadCsv "garbage.csv";
          Stdout ("An error occurred: " +:+
                  exn_str (mkExn UnicodeDecodeError
                    "'utf-8' codec can't decode byte: invalid start byte"))] ∧
  files (main (P:=Mini.pandas) ["csv2xlsx.py"; "garbage.csv"; "out.xlsx"]
           Mini.world0).1 = files Mini.world0.
Proof.
  apply (invalid_source_is_reported_and_nothing_is_written (P:=Mini.pandas)
           "csv2xlsx.py" "garbage.csv" "out.xlsx" Mini.world0).
  - apply mini_reader_contract.
  - vm_compute. reflexivity.
  - vm_compute. reflexivity.
Defined.

(** The failing input of C2: a valid source, and a destination that is a
    broken symbolic link, so that opening it for writing raises
    [FileNotFoundError]. *)
Lemma dangling_destination_is_reported_as_missing_source :
  trace (main (P:=Mini.pandas) ["csv2xlsx.py"; "people.csv"; "dangling.xlsx"]
           Mini.world0).1 =
    trace Mini.world0
      ++ [Stdout ("input =" +:+ "people.csv");
          Stdout ("output =" +:+ "dangling.xlsx");
          ReadCsv "people.csv"; ToExcel "dangling.xlsx" false;
          Stdout ("Error: The file '" +:+ "people.csv" +:+ "' was not found.")].
Proof.
  apply (write_not_found_is_reported_as_missing_source (P:=Mini.pandas)
           "csv2xlsx.py" "people.csv" "dangling.xlsx" Mini.world0 Mini.people
           (files Mini.world0)
           (mkExn FileNotFoundError
              "[Errno 2] No such file or directory: 'dangling.xlsx'")).
  - vm_compute. reflexivity.
  - vm_compute. reflexivity.
  - reflexivity.
Defined.

(** With a serializer that stamps the workbook, two conversions of the same
    input differ: determinism of the writer is needed for C9. *)
Lemma stamped_conversions_differ :
  files (main (P:=Mini.stamping_pandas)
           ["csv2xlsx.py"; "people.csv"; "out.xlsx"] Mini.world1).1 !! "out.xlsx"
  ≠ files (main (P:=Mini.stamping_pandas)
             ["csv2xlsx.py"; "people.csv"; "out.xlsx"] Mini.world0).1 !! "out.xlsx".
Proof. vm_compute. discriminate. Qed.

(** The usage path on concrete command lines: no argument, one argument,
    three arguments. *)
Example run_without_arguments :
  run (P:=Mini.pandas) ["csv2xlsx.py"] Mini.world0
  = (log (Stdout "Usage: python script_name.py <input.csv> <output.xlsx>")
       Mini.world0, 1%Z).
Proof. reflexivity. Qed.

Example run_with_one_argument :
  run (P:=Mini.pandas) ["csv2xlsx.py"; "people.csv"] Mini.world0
  = (log (Stdout "Usage: python script_name.py <input.csv> <output.xlsx>")
       Mini.world0, 1%Z).
Proof. reflexivity. Qed.

Example run_with_three_arguments :
  run (P:=Mini.pandas) ["csv2xlsx.py"; "people.csv"; "out.xlsx"; "extra"]
    Mini.world0
  = (log (Stdout "Usage: python script_name.py <input.csv> <output.xlsx>")
       Mini.world0, 1%Z).
Proof. reflexivity. Qed.

(** A successful run on the example of section 8: what is printed, the exit
    status, and the sheet read back from the destination. *)
Example run_people_csv :
  stdout_of (trace (run (P:=Mini.pandas)
                      ["csv2xlsx.py"; "people.csv"; "out.xlsx"] Mini.world0).1)
  = ["input =people.csv"; "output =out.xlsx";
     "Successfully converted 'people.csv' to 'out.xlsx'"] ∧
  (run (P:=Mini.pandas) ["csv2xlsx.py"; "people.csv"; "out.xlsx"] Mini.world0).2
  = 0%Z ∧
  match files (run (P:=Mini.pandas)
                 ["csv2xlsx.py"; "people.csv"; "out.xlsx"] Mini.world0).1
        !! "out.xlsx" with
  | Some (Regular data) =>
      Mini.read_excel data
      = Some [[CStr "id"; CStr "name"]; [CInt 1; CStr "Alice"];
              [CInt 2; CStr "Bob"]]
  | _ => False
  end.
Proof. vm_compute. done. Qed.

(** A write that fails half-way can leave a file behind: a cell with a
    control character is rejected after the destination was opened. *)
Example illegal_character_leaves_an_empty_destination :
  let df := {| columns := ["note"]; index := [CInt 0];
               values := [[CStr (String (Ascii.ascii_of_nat 7) "")]] |} in
  Mini.to_excel_with Mini.encode 0 df "out.xlsx" false ∅
  = ({["out.xlsx" := Regular []]},
     Some (mkExn IllegalCharacterError
             "a cell value cannot be used in worksheets.")).
Proof. vm_compute. done. Qed.

(** * Further properties of the script *)

Lemma mini_writer_local : writer_local Mini.pandas.
Proof.
  intros now df path index_kw fs p Hp. simpl. unfold Mini.to_excel_with.
  repeat case_match; simpl; by rewrite ?lookup_insert_ne.
Qed.

Lemma report_line_not_found_iff src e :
  report_line src e = msg_not_found src ↔ isinstance e FileNotFoundError = true.
Proof.
  unfold report_line.
  destruct (isinstance e FileNotFoundError); split; (done || discriminate).
Qed.

Section Effects.
Context {P : Pandas}.

(** X1. What a run does to the files is what one call of the writer does:
    with two arguments and a source that loads, the files after the run are
    those [to_excel] leaves when given the loaded frame, the destination path,
    [index=False] and the files as they were -- also when it raises, nothing
    is rolled back; when the load fails or the argument count is wrong the
    files are as before. *)
Theorem files_after_a_run_are_those_of_one_write (argv : list string) (w : World) :
  files (run argv w).1 =
    match argv with
    | [_; src; dst] =>
        match read_csv src (files w !! src) with
        | inl _ => files w
        | inr df => (to_excel (clock w) df dst false (files w)).1
        end
    | _ => files w
    end.
Proof.
  unfold run.
  destruct argv as [|prog [|src [|dst [|extra rest]]]];
    try (rewrite main_wrong_count by (simpl; lia); done).
  destruct (read_csv src (files w !! src)) as [e|df] eqn:Hr.
  { by rewrite (main_load_fails _ _ _ _ _ Hr). }
  destruct (to_excel (clock w) df dst false (files w)) as [fs' [e|]] eqn:Hw.
  - by rewrite (main_write_fails _ _ _ _ _ _ _ Hr Hw).
  - by rewrite (main_converts _ _ _ _ _ _ Hr Hw).
Qed.

(** X2. The order of events in a run with two arguments: the two echo lines
    are printed before pandas is called; the reader is called once, on the
    first argument; the writer is called only after a successful load, once,
    on the second argument and with [index=False]; the outcome line comes
    last.  Nothing is retried. *)
Theorem events_of_a_two_argument_run (prog src dst : string) (w : World) :
  trace (main [prog; src; dst] w).1 =
    trace w
      ++ [Stdout ("input =" +:+ src); Stdout ("output =" +:+ dst); ReadCsv src]
      ++ (if read_csv src (files w !! src) is inr _
          then [ToExcel dst false] else [])
      ++ [Stdout (match pipeline_failure src dst w with
                  | Some e => report_line src e
                  | None => msg_success src dst
                  end)].
Proof.
  unfold pipeline_failure.
  destruct (read_csv src (files w !! src)) as [e|df] eqn:Hr.
  { by rewrite (main_load_fails _ _ _ _ _ Hr). }
  destruct (to_excel (clock w) df dst false (files w)) as [fs' [e|]] eqn:Hw.
  - by rewrite (main_write_fails _ _ _ _ _ _ _ Hr Hw).
  - by rewrite (main_converts _ _ _ _ _ _ Hr Hw).
Qed.

(** X3. [csv_to_xlsx] ends with the success line exactly when neither the
    load nor the write raised: the success line is never printed after a
    failure, and always after a run without one. *)
Theorem success_is_reported_exactly_when_nothing_raised
    (csv_file xlsx_file : string) (w : World) :
  succeeded csv_file xlsx_file (csv_to_xlsx csv_file xlsx_file w).1
  ↔ pipeline_failure csv_file xlsx_file w = None.
Proof.
  unfold succeeded, pipeline_failure.
  destruct (read_csv csv_file (files w !! csv_file)) as [e|df] eqn:Hr.
  { rewrite (csv_to_xlsx_load_fails _ _ _ _ Hr). simpl. rewrite last_snoc.
    split; [|done]. intros [= H]. by apply report_line_not_success in H. }
  destruct (to_excel (clock w) df xlsx_file false (files w)) as [fs' [e|]] eqn:Hw.
  - rewrite (csv_to_xlsx_write_fails _ _ _ _ _ _ Hr Hw). simpl. rewrite last_snoc.
    split; [|done]. intros [= H]. by apply report_line_not_success in H.
  - rewrite (csv_to_xlsx_converts _ _ _ _ _ Hr Hw). simpl. by rewrite last_snoc.
Qed.

(** X4. [csv_to_xlsx] ends with the line that names the source file as not
    found exactly when the load or the write raised an instance of
    [FileNotFoundError]: the line does not tell which of the two steps
    failed. *)
Theorem not_found_is_reported_exactly_on_FileNotFoundError
    (csv_file xlsx_file : string) (w : World) :
  last (trace (csv_to_xlsx csv_file xlsx_file w).1)
    = Some (Stdout ("Error: The file '" +:+ csv_file +:+ "' was not found."))
  ↔ ∃ e, pipeline_failure csv_file xlsx_file w = Some e ∧
         isinstance e FileNotFoundError = true.
Proof.
  change ("Error: The file '" +:+ csv_file +:+ "' was not found.")
    with (msg_not_found csv_file).
  unfold pipeline_failure.
  destruct (read_csv csv_file (files w !! csv_file)) as [e|df] eqn:Hr.
  { rewrite (csv_to_xlsx_load_fails _ _ _ _ Hr). simpl. rewrite last_snoc. split.
    - intros [= H]. exists e. by rewrite <- report_line_not_found_iff.
    - intros (e' & [= <-] & He). by rewrite <- report_line_not_found_iff in He;
        rewrite He. }
  destruct (to_excel (clock w) df xlsx_file false (files w)) as [fs' [e|]] eqn:Hw.
  - rewrite (csv_to_xlsx_write_fails _ _ _ _ _ _ Hr Hw). simpl. rewrite last_snoc.
    split.
    + intros [= H]. exists e. by rewrite <- report_line_not_found_iff.
    + intros (e' & [= <-] & He). by rewrite <- report_line_not_found_iff in He;
        rewrite He.
  - rewrite (csv_to_xlsx_converts _ _ _ _ _ Hr Hw). simpl. rewrite last_snoc.
    split; [discriminate | by intros (e' & ? & _)].
Qed.

(** X5. The program name is never used: two command lines that differ only
    in [sys.argv[0]] run alike -- same files, same printed lines (the usage
    line shows a fixed script name), same exit status. *)
Theorem the_program_name_is_not_used
    (prog prog' : string) (args : list string) (w : World) :
  run (prog :: args) w = run (prog' :: args) w.
Proof.
  unfold run. destruct (decide (length args = 2)) as [Hn|Hn].
  - destruct args as [|src [|dst [|]]]; try discriminate.
    by rewrite !main_two_arguments.
  - by rewrite !main_wrong_count by (simpl; lia).
Qed.

(** X6. With a writer that touches only the file it is given, a run with two
    arguments leaves every path other than the destination resolving to what
    it resolved to before: in particular the source file is kept unless it is
    the destination itself. *)
Theorem only_the_destination_can_change
    (prog src dst p : string) (w : World) :
  writer_local P →
  p ≠ dst →
  files (main [prog; src; dst] w).1 !! p = files w !! p.
Proof.
  intros Hloc Hp.
  destruct (read_csv src (files w !! src)) as [e|df] eqn:Hr.
  { by rewrite (main_load_fails _ _ _ _ _ Hr). }
  specialize (Hloc (clock w) df dst false (files w) p Hp).
  destruct (to_excel (clock w) df dst false (files w)) as [fs' [e|]] eqn:Hw.
  - by rewrite (main_write_fails _ _ _ _ _ _ _ Hr Hw).
  - by rewrite (main_converts _ _ _ _ _ _ Hr Hw).
Qed.

End Effects.

Lemma people_csv_is_kept_by_its_conversion :
  files (main (P:=Mini.pandas) ["csv2xlsx.py"; "people.csv"; "out.xlsx"]
           Mini.world0).1 !! "people.csv"
  = files Mini.world0 !! "people.csv".
Proof.
  apply (only_the_destination_can_change (P:=Mini.pandas)
           "csv2xlsx.py" "people.csv" "out.xlsx" "people.csv" Mini.world0).
  - apply mini_writer_local.
  - discriminate.
Defined.
